(** * Theme manifest checker: [tools/check_theme_manifests.py]

    A shallow embedding of the script that walks [extensions/themes],
    loads every [manifest.json] and reports the manifests that break one
    of its rules, followed by the properties of its four parts: the
    locator [iter_manifest_paths], the loader [load_manifest], the
    validator [validate_manifest] and the driver [main].

    Python values are modelled as the [json] module produces them
    ([None], [bool], [int], [float], [str], [list], [dict]); an uncaught
    Python exception is the [Raise] outcome of [result]; the two lists the
    script appends to ([issues], [all_issues]) are the state of a small
    state-and-exception monad. *)

From Stdlib Require Import Floats.
From stdpp Require Import gmap strings list sorting pretty.

Local Set Warnings "-register-all,-clear-no-such-hyp".
Local Open Scope string_scope.
Local Open Scope list_scope.

(** ** Python values *)

(** What [json.loads] returns. A number without fraction or exponent is an
    [int], any other number a binary64 [float]; an object is a [dict] with
    string keys. *)
Inductive json : Type :=
  | JNull
  | JBool (b : bool)
  | JInt (z : Z)
  | JFloat (f : float)
  | JString (s : string)
  | JArray (xs : list json)
  | JObject (m : gmap string json).

(** [type(v).__name__]. *)
Definition py_type_name (v : json) : string :=
  match v with
  | JNull => "NoneType"
  | JBool _ => "bool"
  | JInt _ => "int"
  | JFloat _ => "float"
  | JString _ => "str"
  | JArray _ => "list"
  | JObject _ => "dict"
  end.

(** [isinstance(v, dict)]. *)
Definition isinstance_dict (v : json) : bool :=
  match v with JObject _ => true | _ => false end.

(** ** Exceptions and outcomes *)

Inductive exn : Type :=
  | AttributeError (type_name attr : string)
  | KeyError (key : string)
  | TypeError (detail : string)
  | FileNotFoundError
  | NotADirectoryError
  | IsADirectoryError
  | ReadError (detail : string).  (* PermissionError, UnicodeDecodeError, ... *)

Inductive result (A : Type) : Type :=
  | Ok (a : A)
  | Raise (e : exn).
Arguments Ok {A} a.
Arguments Raise {A} e.

#[global] Instance result_ret : MRet result := λ A a, Ok a.
#[global] Instance result_bind : MBind result := λ A B k r,
  match r with
  | Ok a => k a
  | Raise e => Raise e
  end.

(** A computation that reads and updates a state [S] and may raise. *)
Definition M (S A : Type) : Type := S → result (A * S).

#[global] Instance M_ret {S} : MRet (M S) := λ A a s, Ok (a, s).
#[global] Instance M_bind {S} : MBind (M S) := λ A B k c s,
  match c s with
  | Ok (a, s') => k a s'
  | Raise e => Raise e
  end.

(** A pure, possibly raising, step inside a stateful computation. *)
Definition lift {S A} (r : result A) : M S A := λ s,
  match r with
  | Ok a => Ok (a, s)
  | Raise e => Raise e
  end.

(** [for x in xs: body(x)] *)
Fixpoint for_each {S A} (xs : list A) (body : A → M S unit) : M S unit :=
  match xs with
  | [] => mret ()
  | x :: rest => body x ;; for_each rest body
  end.

(** [any(test(x) for x in xs)]: stops at the first [True]. *)
Fixpoint py_any {A} (test : A → result bool) (xs : list A) : result bool :=
  match xs with
  | [] => mret false
  | x :: rest => b ← test x; if b : bool then mret true else py_any test rest
  end.

(** [if c: body] with no [else]. *)
Definition when {S} (c : bool) (body : M S unit) : M S unit :=
  if c then body else mret ().

(** ** Operations of the Python values the script uses *)

(** [v.get(key)]: only a [dict] has the method; a missing key gives [None]. *)
Definition py_get (v : json) (key : string) : result json :=
  match v with
  | JObject m => Ok (default JNull (m !! key))
  | _ => Raise (AttributeError (py_type_name v) "get")
  end.

(** [v[key]] for a string key. *)
Definition py_getitem (v : json) (key : string) : result json :=
  match v with
  | JObject m =>
      match m !! key with
      | Some x => Ok x
      | None => Raise (KeyError key)
      end
  | JArray _ => Raise (TypeError "list indices must be integers or slices, not str")
  | JString _ => Raise (TypeError "string indices must be integers, not 'str'")
  | _ => Raise (TypeError ("'" +:+ py_type_name v +:+ "' object is not subscriptable"))
  end.

(** Whether [needle] occurs in [s] ([needle in s] on two [str]). *)
Definition substring_of (needle s : string) : bool :=
  match String.index 0 needle s with
  | Some _ => true
  | None => false
  end.

(** [key in v] for a string [key]: key membership on a [dict], element
    equality on a [list], substring on a [str]. *)
Definition py_contains (v : json) (key : string) : result bool :=
  match v with
  | JObject m => Ok (bool_decide (is_Some (m !! key)))
  | JArray xs =>
      Ok (existsb (λ x, match x with JString s => String.eqb s key | _ => false end) xs)
  | JString s => Ok (substring_of key s)
  | _ => Raise (TypeError ("argument of type '" +:+ py_type_name v +:+ "' is not iterable"))
  end.

(** [f == z] for a [float] and an [int]: Python compares the exact values. *)
Definition float_eq_int (f : float) (z : Z) : bool :=
  match Prim2SF f with
  | S754_zero _ => (z =? 0)%Z
  | S754_finite s m e =>
      let v := if s then Z.neg m else Z.pos m in
      if (0 <=? e)%Z then (v * 2 ^ e =? z)%Z else (v =? z * 2 ^ (- e))%Z
  | _ => false
  end.

(** [v == z] for an [int] literal [z]: numbers compare by value ([bool] is
    a subclass of [int]), every other type is unequal to an [int]. *)
Definition py_eq_int (v : json) (z : Z) : bool :=
  match v with
  | JInt x => (x =? z)%Z
  | JBool b => (Z.b2z b =? z)%Z
  | JFloat f => float_eq_int f z
  | _ => false
  end.

(** ** Paths and the file system *)

(** A path is the list of its components, as [PurePath.parts]. *)
Abbreviation Path := (list string).

(** [p / name] *)
Definition joinpath (p : Path) (name : string) : Path := p ++ [name].

(** [p.name] *)
Definition path_name (p : Path) : string := default "" (last p).

(** [str(p)] *)
Definition path_str (p : Path) : string := String.concat "/" p.

(** Paths are ordered as their lists of components, each component as a
    [str] (by code point). *)
Fixpoint path_compare (p q : Path) : comparison :=
  match p, q with
  | [], [] => Eq
  | [], _ :: _ => Lt
  | _ :: _, [] => Gt
  | a :: p', b :: q' =>
      match String.compare a b with
      | Eq => path_compare p' q'
      | c => c
      end
  end.

Definition path_le (p q : Path) : Prop := path_compare p q ≠ Gt.
Definition str_le (a b : string) : Prop := String.compare a b ≠ Gt.

#[global] Instance path_le_dec : RelDecision path_le.
Proof. intros p q. unfold path_le. apply _. Defined.
#[global] Instance str_le_dec : RelDecision str_le.
Proof. intros a b. unfold str_le. apply _. Defined.

(** [sorted(paths)] *)
Definition sorted (paths : list Path) : list Path := merge_sort path_le paths.

(** What the file system holds at a path: nothing, a file (with what
    [read_text(encoding="utf-8")] gives for it: the text, or an error
    outside the ones the script handles) or a directory with the names
    of its entries in the order the operating system lists them. *)
Inductive node : Type :=
  | Missing
  | File (content : result string)
  | Dir (names : list string).

Abbreviation filesystem := (Path → node).

(** What [json.loads] does with a text: the value, or a [JSONDecodeError]
    whose [str()] is the diagnostic. *)
Inductive parsed : Type :=
  | Parsed (doc : json)
  | JSONDecodeError (err : string).

(** ** The script *)

Record ManifestIssue : Type := Issue { path : Path; message : string }.

Definition format (self : ManifestIssue) : string :=
  path_str (path self) +:+ ": " +:+ message self.

(** What [load_manifest] returns: the parsed document or an issue. *)
Inductive loaded : Type :=
  | Document (manifest : json)
  | Failed (issue : ManifestIssue).

(** What a run leaves behind: the exit status and the lines printed. *)
Record outcome : Type :=
  Outcome { exit_code : Z; stdout : list string; stderr : list string }.

(** [issues.append(i)] *)
Definition append (i : ManifestIssue) : M (list ManifestIssue) unit :=
  λ issues, Ok ((), issues ++ [i]).

(** [all_issues.extend(new)] *)
Definition extend (new : list ManifestIssue) : M (list ManifestIssue) unit :=
  λ issues, Ok ((), issues ++ new).

Section script.
(** [repr] of the values whose text is not fixed by a short rule
    (floats, strings, lists, dicts), [json.loads], the file system the
    run reads, and the constant [THEMES_DIR]. *)
Variable repr_other : json → string.
Variable json_loads : string → parsed.
Variable fs : filesystem.
Variable THEMES_DIR : Path.

(** [repr(v)], what [{v!r}] puts in an f-string. *)
Definition py_repr (v : json) : string :=
  match v with
  | JNull => "None"
  | JBool true => "True"
  | JBool false => "False"
  | JInt z => pretty z
  | _ => repr_other v
  end.

(** [p.exists()], [p.is_dir()], [p.iterdir()], [p.read_text()]. *)
Definition path_exists (p : Path) : bool :=
  match fs p with Missing => false | _ => true end.

Definition is_dir (p : Path) : bool :=
  match fs p with Dir _ => true | _ => false end.

Definition iterdir (p : Path) : result (list Path) :=
  match fs p with
  | Dir names => Ok (joinpath p <$> names)
  | File _ => Raise NotADirectoryError
  | Missing => Raise FileNotFoundError
  end.

Definition read_text (p : Path) : result string :=
  match fs p with
  | File content => content
  | Dir _ => Raise IsADirectoryError
  | Missing => Raise FileNotFoundError
  end.

(** The body of the loop of [iter_manifest_paths] over the sorted
    entries: the paths it yields, in the order it yields them. *)
Fixpoint yield_manifest_paths (entries : list Path) : list Path :=
  match entries with
  | [] => []
  | entry :: rest =>
      if String.prefix "." (path_name entry) then yield_manifest_paths rest
      else if negb (is_dir entry) then yield_manifest_paths rest
      else joinpath entry "manifest.json" :: yield_manifest_paths rest
  end.

(** The generator reads the file system only ([iterdir] when it starts,
    [is_dir] per entry), so the paths it yields do not depend on when
    the caller asks for the next one: it is modelled by their list. *)
Definition iter_manifest_paths (root : Path) : result (list Path) :=
  entries ← iterdir root;
  mret (yield_manifest_paths (sorted entries)).

Definition load_manifest (path : Path) : result loaded :=
  if negb (path_exists path) then
    mret (Failed (Issue path "missing manifest.json"))
  else
    text ← read_text path;
    match json_loads text with
    | Parsed doc => mret (Document doc)
    | JSONDecodeError err => mret (Failed (Issue path ("invalid JSON: " +:+ err)))
    end.

(** The body of [validate_manifest], on the list [issues]. *)
Definition validate_rules (path : Path) (manifest : json)
    : M (list ManifestIssue) unit :=
  manifest_version ← lift (py_get manifest "manifest_version");
  when (negb (py_eq_int manifest_version 3))
    (append (Issue path
       ("expected manifest_version 3, found " +:+ py_repr manifest_version))) ;;
  for_each ["name"; "version"; "theme"] (λ field,
    present ← lift (py_contains manifest field);
    when (negb present)
      (append (Issue path ("missing required field '" +:+ field +:+ "'")))) ;;
  theme ← lift (py_get manifest "theme");
  if isinstance_dict theme then
    theme_block ← lift (py_getitem manifest "theme");
    found ← lift (py_any (py_contains theme_block) ["colors"; "images"]);
    when (negb found)
      (append (Issue path
         "theme block should include at least 'colors' or 'images'"))
  else
    append (Issue path "theme section must be an object").

Definition validate_manifest (path : Path) (manifest : json)
    : result (list ManifestIssue) :=
  '(_, issues) ← validate_rules path manifest [];
  mret issues.

(** The body of the loop of [main], on the list [all_issues]. *)
Definition scan_one (manifest_path : Path) : M (list ManifestIssue) unit :=
  manifest_or_issue ← lift (load_manifest manifest_path);
  match manifest_or_issue with
  | Failed issue => append issue
  | Document manifest =>
      new ← lift (validate_manifest manifest_path manifest);
      extend new
  end.

(** The scan of [main]: the value of [all_issues] after the loop. *)
Definition scan : result (list ManifestIssue) :=
  manifest_paths ← iter_manifest_paths THEMES_DIR;
  '(_, all_issues) ← for_each manifest_paths scan_one [];
  mret all_issues.

Definition main : result outcome :=
  if negb (path_exists THEMES_DIR) then
    mret (Outcome 2 []
            ["error: themes directory not found: " +:+ path_str THEMES_DIR])
  else
    all_issues ← scan;
    if bool_decide (all_issues ≠ []) then
      mret (Outcome 1
              ("Theme manifest validation failed:"
                 :: ((λ issue, "  - " +:+ format issue) <$> all_issues))
              [])
    else
      mret (Outcome 0 ["All theme manifests look good."] []).
End script.

(** ** The rules of the validator, one by one

    What each rule of [validate_manifest] adds to [issues] for a manifest
    that is a [dict] [m]; [validate_manifest_dict] below shows that the
    function returns their concatenation. *)

Definition version_message (found : string) : string :=
  "expected manifest_version 3, found " +:+ found.

Definition missing_field_message (field : string) : string :=
  "missing required field '" +:+ field +:+ "'".

Definition theme_object_message : string := "theme section must be an object".

Definition theme_keys_message : string :=
  "theme block should include at least 'colors' or 'images'".

Definition required_fields : list string := ["name"; "version"; "theme"].

Definition has_key (m : gmap string json) (key : string) : bool :=
  bool_decide (is_Some (m !! key)).

Definition rule_version (repr_other : json → string) (p : Path)
    (m : gmap string json) : list ManifestIssue :=
  let found := default JNull (m !! "manifest_version") in
  if py_eq_int found 3 then []
  else [Issue p (version_message (py_repr repr_other found))].

Definition rule_field (p : Path) (m : gmap string json) (field : string)
    : list ManifestIssue :=
  if has_key m field then [] else [Issue p (missing_field_message field)].

Definition rule_theme (p : Path) (m : gmap string json) : list ManifestIssue :=
  match m !! "theme" with
  | Some (JObject theme_block) =>
      if has_key theme_block "colors" || has_key theme_block "images" then []
      else [Issue p theme_keys_message]
  | _ => [Issue p theme_object_message]
  end.

(** The kinds of issue, told apart by their message. *)
Definition is_version_issue (i : ManifestIssue) : bool :=
  String.prefix "expected manifest_version 3, found " (message i).

Definition is_required_field_issue (i : ManifestIssue) : bool :=
  String.prefix "missing required field '" (message i).

Definition is_missing_field (field : string) (i : ManifestIssue) : bool :=
  String.eqb (message i) (missing_field_message field).

Definition is_theme_object_issue (i : ManifestIssue) : bool :=
  String.eqb (message i) theme_object_message.

Definition is_theme_keys_issue (i : ManifestIssue) : bool :=
  String.eqb (message i) theme_keys_message.

(** An issue about the [theme] key or its value. *)
Definition is_theme_issue (i : ManifestIssue) : bool :=
  is_missing_field "theme" i || is_theme_object_issue i || is_theme_keys_issue i.

(** How many issues of a kind a list holds. *)
Definition count (kind : ManifestIssue → bool) (issues : list ManifestIssue) : nat :=
  length (List.filter kind issues).

(** The issues of one manifest path, as the loop of [main] adds them. *)
Definition manifest_issues (repr_other : json → string)
    (json_loads : string → parsed) (fs : filesystem) (p : Path)
    : result (list ManifestIssue) :=
  manifest_or_issue ← load_manifest json_loads fs p;
  match manifest_or_issue with
  | Failed issue => mret [issue]
  | Document manifest => validate_manifest repr_other p manifest
  end.

(** The directories of [names] the locator keeps: not hidden, and a
    directory. *)
Definition is_theme_dir (fs : filesystem) (root : Path) (name : string) : Prop :=
  String.prefix "." name = false ∧ is_dir fs (joinpath root name) = true.

#[global] Instance is_theme_dir_dec fs root name : Decision (is_theme_dir fs root name).
Proof. unfold is_theme_dir. apply _. Defined.

(** The manifest path of the directory [name] under [root]. *)
Definition manifest_path (root : Path) (name : string) : Path :=
  joinpath (joinpath root name) "manifest.json".

(** The lines [main] prints for a non-empty list of issues. *)
Definition failure_report (all_issues : list ManifestIssue) : list string :=
  "Theme manifest validation failed:"
    :: ((λ issue, "  - " +:+ format issue) <$> all_issues).

(** ** What the run as a whole depends on *)

(** The keys [validate_manifest] looks up in a manifest. *)
Definition checked_keys : list string :=
  ["manifest_version"; "name"; "version"; "theme"].

(** A manifest no rule objects to: a version equal to [3], the keys
    [name] and [version], and a [theme] object with [colors] or
    [images]. *)
Definition conformant (m : gmap string json) : bool :=
  py_eq_int (default JNull (m !! "manifest_version")) 3
  && has_key m "name" && has_key m "version"
  && match m !! "theme" with
     | Some (JObject theme_block) =>
         has_key theme_block "colors" || has_key theme_block "images"
     | _ => false
     end.

(** The exit status of the process for [sys.exit(main())]: the integer
    [main] returns, or 1 when an exception reaches the top level. *)
Definition exit_status (run : result outcome) : Z :=
  match run with
  | Ok o => exit_code o
  | Raise _ => 1
  end.

(** ** Data of the examples *)

Module Examples.
(** [repr] on a [str] of plain letters and digits; the examples apply it
    to no other value. *)
Definition repr_other (v : json) : string :=
  match v with
  | JString s => "'" +:+ s +:+ "'"
  | _ => "..."
  end.

(** [json.loads] on the texts of the examples: an empty object, an empty
    array and the empty text. *)
Definition json_loads (text : string) : parsed :=
  if String.eqb text "{}" then Parsed (JObject ∅)
  else if String.eqb text "[]" then Parsed (JArray [])
  else JSONDecodeError "Expecting value: line 1 column 1 (char 0)".

Definition THEMES_DIR : Path := ["archon"; "extensions"; "themes"].

(** A conformant manifest, as scenario A of the specification. *)
Definition solarized : gmap string json :=
  {[ "manifest_version" := JInt 3;
     "name" := JString "Solarized";
     "version" := JString "1.0";
     "theme" := JObject {[ "colors" := JObject {[ "frame" := JString "#002b36" ]} ]} ]}.

(** The same manifest with the version written [3.0]. *)
Definition solarized_float : gmap string json :=
  <[ "manifest_version" := JFloat 3.0%float ]> solarized.

(** Its path. *)
Definition solarized_path : Path := manifest_path THEMES_DIR "solarized".

(** The same manifest with the version [2], and with no [theme] key. *)
Definition badversion : gmap string json :=
  <[ "manifest_version" := JInt 2 ]> solarized.

Definition untitled : gmap string json := delete "theme" solarized.

(** A theme block with neither [colors] nor [images]. *)
Definition bare_theme : gmap string json :=
  <[ "theme" := JObject {[ "tints" := JObject ∅ ]} ]> solarized.

(** A themes directory with a hidden entry, a plain file, a theme with
    no manifest ([broken]), one whose manifest is the empty text
    ([empty]) and one whose manifest is [{}] ([blank]). *)
Definition themes : filesystem := λ p,
  if decide (p = THEMES_DIR) then Dir ["empty"; ".git"; "README.md"; "broken"; "blank"]
  else if decide (p = THEMES_DIR ++ [".git"]) then Dir []
  else if decide (p = THEMES_DIR ++ ["README.md"]) then File (Ok "themes")
  else if decide (p = THEMES_DIR ++ ["broken"]) then Dir []
  else if decide (p = THEMES_DIR ++ ["empty"]) then Dir ["manifest.json"]
  else if decide (p = THEMES_DIR ++ ["empty"; "manifest.json"]) then File (Ok "")
  else if decide (p = THEMES_DIR ++ ["blank"]) then Dir ["manifest.json"]
  else if decide (p = THEMES_DIR ++ ["blank"; "manifest.json"]) then File (Ok "{}")
  else Missing.

(** A themes directory whose only theme has the manifest [[]]. *)
Definition array_theme : filesystem := λ p,
  if decide (p = THEMES_DIR) then Dir ["listy"]
  else if decide (p = THEMES_DIR ++ ["listy"]) then Dir ["manifest.json"]
  else if decide (p = THEMES_DIR ++ ["listy"; "manifest.json"]) then File (Ok "[]")
  else Missing.

(** A themes directory with no theme in it. *)
Definition no_themes : filesystem := λ p,
  if decide (p = THEMES_DIR) then Dir [] else Missing.

(** No themes directory at all. *)
Definition no_root : filesystem := λ _, Missing.

(** The themes directory of [themes], listed in another order. *)
Definition themes_reordered : filesystem := λ p,
  if decide (p = THEMES_DIR) then Dir ["blank"; "broken"; "README.md"; ".git"; "empty"]
  else themes p.

(** A plain file where the themes directory should be. *)
Definition root_is_file : filesystem := λ p,
  if decide (p = THEMES_DIR) then File (Ok "themes") else Missing.

(** A theme with no manifest ([alpha]) before one whose manifest cannot
    be read ([locked]) and one whose manifest is a directory ([nested]). *)
Definition unreadable : filesystem := λ p,
  if decide (p = THEMES_DIR) then Dir ["nested"; "locked"; "alpha"]
  else if decide (p = THEMES_DIR ++ ["alpha"]) then Dir []
  else if decide (p = THEMES_DIR ++ ["locked"]) then Dir ["manifest.json"]
  else if decide (p = THEMES_DIR ++ ["locked"; "manifest.json"]) then
    File (Raise (ReadError "Permission denied"))
  else if decide (p = THEMES_DIR ++ ["nested"]) then Dir ["manifest.json"]
  else if decide (p = THEMES_DIR ++ ["nested"; "manifest.json"]) then Dir []
  else Missing.

(** The text of the manifest [solarized]; [dq] is the double quote. *)
Definition dq : string := String (Ascii.ascii_of_nat 34) "".

Definition quoted (s : string) : string := dq +:+ s +:+ dq.

Definition solarized_text : string :=
  "{" +:+ quoted "manifest_version" +:+ ":3,"
      +:+ quoted "name" +:+ ":" +:+ quoted "Solarized" +:+ ","
      +:+ quoted "version" +:+ ":" +:+ quoted "1.0" +:+ ","
      +:+ quoted "theme" +:+ ":{" +:+ quoted "colors" +:+ ":{"
      +:+ quoted "frame" +:+ ":" +:+ quoted "#002b36" +:+ "}}}".

(** [json.loads] on that text as well. *)
Definition json_loads_solarized (text : string) : parsed :=
  if String.eqb text solarized_text then Parsed (JObject solarized)
  else json_loads text.

(** A themes directory with the one theme [solarized]. *)
Definition one_theme : filesystem := λ p,
  if decide (p = THEMES_DIR) then Dir ["solarized"]
  else if decide (p = THEMES_DIR ++ ["solarized"]) then Dir ["manifest.json"]
  else if decide (p = solarized_path) then File (Ok solarized_text)
  else Missing.

(** A themes directory with nothing but a hidden directory and a file. *)
Definition only_hidden : filesystem := λ p,
  if decide (p = THEMES_DIR) then Dir [".git"; "README.md"]
  else if decide (p = THEMES_DIR ++ [".git"]) then Dir ["manifest.json"]
  else if decide (p = THEMES_DIR ++ ["README.md"]) then File (Ok "themes")
  else Missing.
End Examples.

(** * Properties *)

(** ** The order of strings and paths *)

Lemma ascii_compare_refl a : Ascii.compare a a = Eq.
Proof. unfold Ascii.compare. apply N.compare_refl. Qed.

Lemma ascii_compare_lt_trans a b c :
  Ascii.compare a b = Lt → Ascii.compare b c = Lt → Ascii.compare a c = Lt.
Proof. unfold Ascii.compare. rewrite !N.compare_lt_iff. lia. Qed.

(** One step of a lexicographic comparison: split on how the heads
    compare, replace equal heads, and close with the facts at hand. *)
Ltac lex_step eq_iff refl lt_trans :=
  repeat match goal with
  | H : context [match ?c with Eq => _ | Lt => _ | Gt => _ end] |- _ =>
      let E := fresh "E" in destruct c eqn:E; try discriminate H
  | E : _ = Eq |- _ => apply eq_iff in E; subst
  end;
  rewrite ?refl; eauto;
  try match goal with
  | H1 : ?cmp ?a ?b = Lt, H2 : ?cmp ?b ?c = Lt |- _ =>
      rewrite (lt_trans a b c H1 H2)
  end;
  repeat match goal with E : _ = Lt |- _ => rewrite E end;
  eauto.

Lemma string_compare_refl s : String.compare s s = Eq.
Proof. induction s as [|a s IH]; simpl; [done|]. by rewrite ascii_compare_refl. Qed.

Lemma string_compare_lt_trans s1 s2 s3 :
  String.compare s1 s2 = Lt → String.compare s2 s3 = Lt → String.compare s1 s3 = Lt.
Proof.
  revert s2 s3. induction s1 as [|a s1 IH]; intros [|b s2] [|c s3]; simpl; try done.
  intros H1 H2.
  lex_step Ascii.compare_eq_iff ascii_compare_refl ascii_compare_lt_trans.
Qed.

Lemma path_compare_refl p : path_compare p p = Eq.
Proof. induction p as [|a p IH]; simpl; [done|]. by rewrite string_compare_refl. Qed.

Lemma path_compare_eq p q : path_compare p q = Eq → p = q.
Proof.
  revert q. induction p as [|a p IH]; intros [|b q]; simpl; try done.
  destruct (String.compare a b) eqn:E; try done.
  intros ?. apply String.compare_eq_iff in E. f_equal; auto.
Qed.

Lemma path_compare_antisym p q : path_compare p q = CompOpp (path_compare q p).
Proof.
  revert q. induction p as [|a p IH]; intros [|b q]; simpl; try done.
  rewrite String.compare_antisym. destruct (String.compare b a); simpl; auto.
Qed.

Lemma path_compare_lt_trans p q r :
  path_compare p q = Lt → path_compare q r = Lt → path_compare p r = Lt.
Proof.
  revert q r. induction p as [|a p IH]; intros [|b q] [|c r]; simpl; try done.
  intros H1 H2.
  lex_step String.compare_eq_iff string_compare_refl string_compare_lt_trans.
Qed.

#[global] Instance path_le_total : Total path_le.
Proof.
  intros p q. unfold path_le. rewrite (path_compare_antisym q p).
  destruct (path_compare p q); simpl; auto.
Qed.

#[global] Instance path_le_trans : Transitive path_le.
Proof.
  intros p q r. unfold path_le. intros Hpq Hqr.
  destruct (path_compare p q) eqn:E1; [| |done].
  - apply path_compare_eq in E1. by subst.
  - destruct (path_compare q r) eqn:E2; [| |done].
    + apply path_compare_eq in E2. subst. by rewrite E1.
    + by rewrite (path_compare_lt_trans p q r).
Qed.

(** Two entries of one directory compare as their names do. *)
Lemma path_compare_joinpath root a b :
  path_compare (joinpath root a) (joinpath root b) = String.compare a b.
Proof.
  unfold joinpath. induction root as [|c root IH]; simpl.
  - by destruct (String.compare a b).
  - by rewrite string_compare_refl.
Qed.

Lemma path_name_joinpath p name : path_name (joinpath p name) = name.
Proof. unfold path_name, joinpath. by rewrite last_snoc. Qed.

(** ** Sorted lists *)

Lemma StronglySorted_joinpath_inv root names :
  StronglySorted path_le (joinpath root <$> names) → StronglySorted str_le names.
Proof.
  induction names as [|n names IH]; simpl; [constructor|].
  intros [Hs Hall]%StronglySorted_inv. constructor; [by apply IH|].
  rewrite Forall_fmap in Hall. eapply Forall_impl; [exact Hall|].
  intros n'. unfold path_le, str_le. simpl. by rewrite path_compare_joinpath.
Qed.

Lemma StronglySorted_filter {A} (R : relation A) (P : A → Prop)
    `{∀ x, Decision (P x)} l :
  StronglySorted R l → StronglySorted R (filter P l).
Proof.
  induction 1 as [|x l Hs IH Hall]; [constructor|].
  rewrite filter_cons. case_decide; [|done].
  constructor; [done|].
  apply Forall_forall. intros y [_ Hy]%list_elem_of_filter.
  by eapply Forall_forall in Hall.
Qed.

(** [sorted] on the entries of a directory lists them by name. *)
Lemma sorted_entries root names :
  ∃ ns, sorted (joinpath root <$> names) = joinpath root <$> ns
        ∧ StronglySorted str_le ns ∧ ns ≡ₚ names.
Proof.
  pose proof (merge_sort_Permutation path_le (joinpath root <$> names)) as Hp.
  change (joinpath root <$> names) with (map (joinpath root) names) in Hp at 2.
  apply Permutation_map_inv in Hp as (ns & Heq & Hns).
  exists ns. split; [exact Heq|]. split; [|by symmetry].
  apply (StronglySorted_joinpath_inv root). unfold sorted in Heq.
  change (joinpath root <$> ns) with (map (joinpath root) ns). rewrite <- Heq.
  apply (StronglySorted_merge_sort path_le).
Qed.

(** ** The locator *)

Lemma yield_manifest_paths_entries fs root names :
  yield_manifest_paths fs (joinpath root <$> names)
  = manifest_path root <$> filter (is_theme_dir fs root) names.
Proof.
  induction names as [|n names IH]; [done|].
  rewrite fmap_cons, filter_cons. cbn [yield_manifest_paths].
  rewrite path_name_joinpath, IH.
  destruct (decide (is_theme_dir fs root n)) as [[H1 H2]|H].
  - by rewrite H1, H2.
  - destruct (String.prefix "." n) eqn:H1; [done|].
    destruct (is_dir fs (joinpath root n)) eqn:H2; [|done].
    by destruct H.
Qed.

(** C6. For a root directory listing [names], the locator yields the path
    [root/d/manifest.json] for the entries [d] that do not start with a
    dot and are directories, once each, ordered by name; whether the
    manifest itself exists plays no part. *)
Theorem locator_yields_sorted_theme_dirs (fs : filesystem) (root : Path)
    (names : list string) :
  fs root = Dir names →
  ∃ dirs, iter_manifest_paths fs root = Ok (manifest_path root <$> dirs)
          ∧ StronglySorted str_le dirs
          ∧ dirs ≡ₚ filter (is_theme_dir fs root) names.
Proof.
  intros Hroot. unfold iter_manifest_paths, iterdir. rewrite Hroot. simpl.
  destruct (sorted_entries root names) as (ns & -> & Hsorted & Hperm).
  exists (filter (is_theme_dir fs root) ns). split; [|split].
  - unfold mret, result_ret. f_equal. apply yield_manifest_paths_entries.
  - by apply StronglySorted_filter.
  - by rewrite Hperm.
Qed.

(** ** The loader *)

Lemma load_manifest_missing json_loads (fs : filesystem) p :
  fs p = Missing →
  load_manifest json_loads fs p = Ok (Failed (Issue p "missing manifest.json")).
Proof. intros H. unfold load_manifest, path_exists. by rewrite H. Qed.

Lemma load_manifest_text json_loads (fs : filesystem) p text :
  fs p = File (Ok text) →
  load_manifest json_loads fs p =
    match json_loads text with
    | Parsed doc => Ok (Document doc)
    | JSONDecodeError err => Ok (Failed (Issue p ("invalid JSON: " +:+ err)))
    end.
Proof.
  intros H. unfold load_manifest, path_exists, read_text. rewrite H. simpl.
  by destruct (json_loads text).
Qed.

Lemma scan_one_failed repr_other json_loads fs p issue all_issues :
  load_manifest json_loads fs p = Ok (Failed issue) →
  scan_one repr_other json_loads fs p all_issues = Ok ((), all_issues ++ [issue]).
Proof. intros H. unfold scan_one, mbind, M_bind, lift. by rewrite H. Qed.

(** C7. A manifest that does not exist gives the issue "missing
    manifest.json"; one whose text [json.loads] rejects gives "invalid
    JSON: " followed by the parser's diagnostic; any other text gives the
    parsed document. In the loop of [main] an issue of the loader is
    appended to [all_issues] and the loop goes on with the next path. *)
Theorem loader_results (repr_other : json → string) (json_loads : string → parsed)
    (fs : filesystem) (p : Path) :
  (fs p = Missing →
     load_manifest json_loads fs p = Ok (Failed (Issue p "missing manifest.json")))
  ∧ (∀ text err, fs p = File (Ok text) → json_loads text = JSONDecodeError err →
       load_manifest json_loads fs p = Ok (Failed (Issue p ("invalid JSON: " +:+ err))))
  ∧ (∀ text doc, fs p = File (Ok text) → json_loads text = Parsed doc →
       load_manifest json_loads fs p = Ok (Document doc))
  ∧ (∀ issue rest all_issues, load_manifest json_loads fs p = Ok (Failed issue) →
       for_each (p :: rest) (scan_one repr_other json_loads fs) all_issues
       = for_each rest (scan_one repr_other json_loads fs) (all_issues ++ [issue])).
Proof.
  repeat split.
  - apply load_manifest_missing.
  - intros text err Hfs Hloads. rewrite (load_manifest_text _ _ _ text Hfs).
    by rewrite Hloads.
  - intros text doc Hfs Hloads. rewrite (load_manifest_text _ _ _ text Hfs).
    by rewrite Hloads.
  - intros issue rest all_issues Hload. simpl. unfold mbind at 1, M_bind.
    by rewrite (scan_one_failed _ _ _ _ issue).
Qed.

(** ** The validator *)

Lemma validate_manifest_dict repr_other p m :
  validate_manifest repr_other p (JObject m)
  = Ok (rule_version repr_other p m ++ rule_field p m "name"
          ++ rule_field p m "version" ++ rule_field p m "theme" ++ rule_theme p m).
Proof.
  unfold validate_manifest, validate_rules, rule_version, rule_field, rule_theme, has_key.
  unfold mbind, M_bind, result_bind, lift, when, append, mret, M_ret, result_ret. cbn.
  destruct (py_eq_int (default JNull (m !! "manifest_version")) 3); cbn.
  all: destruct (m !! "name"), (m !! "version"); cbn.
  all: destruct (m !! "theme") as [[| | | | | |t]|]; cbn; try reflexivity.
  all: destruct (t !! "colors"), (t !! "images"); cbn; reflexivity.
Qed.

Lemma validate_manifest_not_dict repr_other p v :
  isinstance_dict v = false →
  validate_manifest repr_other p v = Raise (AttributeError (py_type_name v) "get").
Proof. by destruct v. Qed.

(** *** Counting issues by kind *)

Lemma count_nil kind : count kind [] = 0.
Proof. done. Qed.

Lemma count_cons kind i issues :
  count kind (i :: issues) = (if kind i then 1 else 0) + count kind issues.
Proof. unfold count. simpl. by destruct (kind i). Qed.

Lemma count_app kind issues1 issues2 :
  count kind (issues1 ++ issues2) = count kind issues1 + count kind issues2.
Proof. unfold count. by rewrite List.filter_app, length_app. Qed.

Lemma prefix_app s t : String.prefix s (s +:+ t) = true.
Proof.
  induction s as [|a s IH]; simpl; [by destruct t|].
  by destruct (Ascii.ascii_dec a a).
Qed.

(** The kind of the version issue, whatever value it shows. *)
Lemma is_version_issue_version p found :
  is_version_issue (Issue p (version_message found)) = true.
Proof. apply prefix_app. Qed.

Lemma is_required_field_issue_version p found :
  is_required_field_issue (Issue p (version_message found)) = false.
Proof. done. Qed.

Lemma is_missing_field_version field p found :
  is_missing_field field (Issue p (version_message found)) = false.
Proof. done. Qed.

Lemma is_theme_object_issue_version p found :
  is_theme_object_issue (Issue p (version_message found)) = false.
Proof. done. Qed.

Lemma is_theme_keys_issue_version p found :
  is_theme_keys_issue (Issue p (version_message found)) = false.
Proof. done. Qed.

Lemma is_theme_issue_version p found :
  is_theme_issue (Issue p (version_message found)) = false.
Proof. done. Qed.

Create Rewrite HintDb issue_kinds.
#[global] Hint Rewrite count_app count_cons count_nil
  is_version_issue_version is_required_field_issue_version
  is_missing_field_version is_theme_object_issue_version
  is_theme_keys_issue_version is_theme_issue_version : issue_kinds.

(** Case analysis on what the rules look at in the manifest [m]. *)
Ltac rule_cases m :=
  unfold rule_version, rule_field, rule_theme, has_key;
  destruct (py_eq_int (default JNull (m !! "manifest_version")) 3) eqn:?;
  destruct (m !! "name") eqn:?, (m !! "version") eqn:?;
  let block := fresh "block" in
  destruct (m !! "theme") as [[| | | | | |block]|] eqn:?;
  try (destruct (block !! "colors") eqn:?, (block !! "images") eqn:?);
  cbn [bool_decide decide_rel is_Some_dec decide orb].

(** The number of issues of a kind among those of the rules. *)
Ltac count_rules m := rule_cases m; autorewrite with issue_kinds; reflexivity.

(** Whether an issue is among those of the rules. *)
Ltac issue_elem m :=
  rule_cases m;
  rewrite ?elem_of_app, ?elem_of_cons, ?elem_of_nil;
  split; intros; try done; naive_solver.

(** C2, as the code has it. For a manifest that is a [dict], the validator
    reports the version once when [manifest.get("manifest_version")]
    differs from [3] under Python's [!=], and not at all when it is equal;
    the message is "expected manifest_version 3, found " followed by the
    [repr] of the value ([None] for an absent key). The values equal to
    [3] are the integer [3] and a float of value [3.0]; every other value
    (absent, a string, another number, a boolean) is reported. *)
Theorem version_issue_rule (repr_other : json → string) (p : Path)
    (m : gmap string json) :
  ∃ issues, validate_manifest repr_other p (JObject m) = Ok issues
    ∧ count is_version_issue issues
      = (if py_eq_int (default JNull (m !! "manifest_version")) 3 then 0 else 1)
    ∧ (py_eq_int (default JNull (m !! "manifest_version")) 3 = false →
       Issue p (version_message (py_repr repr_other (default JNull (m !! "manifest_version"))))
         ∈ issues)
    ∧ (∀ v, py_eq_int v 3 = true
            ↔ v = JInt 3 ∨ ∃ f, v = JFloat f ∧ float_eq_int f 3 = true).
Proof.
  eexists. split; [apply validate_manifest_dict|]. split; [|split].
  - count_rules m.
  - intros H. unfold rule_version. rewrite H. set_solver.
  - intros v. destruct v as [|b|z| | | |]; simpl; try naive_solver.
    + destruct b; naive_solver.
    + rewrite Z.eqb_eq. naive_solver.
Qed.

(** C1, as the code has it. For a manifest that is a [dict], the validator
    reports "theme section must be an object" once exactly when
    [manifest.get("theme")] is not a [dict]: the key [theme] is absent or
    its value is not an object. Then no issue about [colors] and [images]
    is reported, and for an absent key the issue comes in addition to the
    one of the missing required field. *)
Theorem theme_object_issue_rule (repr_other : json → string) (p : Path)
    (m : gmap string json) :
  ∃ issues, validate_manifest repr_other p (JObject m) = Ok issues
    ∧ count is_theme_object_issue issues
      = (if isinstance_dict (default JNull (m !! "theme")) then 0 else 1)
    ∧ (Issue p theme_object_message ∈ issues
       ↔ m !! "theme" = None ∨ ∃ v, m !! "theme" = Some v ∧ isinstance_dict v = false)
    ∧ (isinstance_dict (default JNull (m !! "theme")) = false →
       count is_theme_keys_issue issues = 0)
    ∧ (m !! "theme" = None → Issue p (missing_field_message "theme") ∈ issues).
Proof.
  eexists. split; [apply validate_manifest_dict|]. split; [|split; [|split]].
  - count_rules m.
  - issue_elem m.
  - rule_cases m; cbn [default isinstance_dict]; try done; intros _;
      autorewrite with issue_kinds; reflexivity.
  - intros H. unfold rule_field, has_key. rewrite H. set_solver.
Qed.

(** C4. For a manifest that is a [dict], the validator reports one
    missing-required-field issue per field of [name], [version], [theme]
    that is not a key of the manifest, naming that field, and none for
    a field that is a key, whatever its value. *)
Theorem required_field_issues (repr_other : json → string) (p : Path)
    (m : gmap string json) :
  ∃ issues, validate_manifest repr_other p (JObject m) = Ok issues
    ∧ count is_required_field_issue issues
      = length (filter (λ field, m !! field = None) required_fields)
    ∧ ∀ field, field ∈ required_fields →
        count (is_missing_field field) issues = (if has_key m field then 0 else 1)
        ∧ (Issue p (missing_field_message field) ∈ issues ↔ m !! field = None).
Proof.
  eexists. split; [apply validate_manifest_dict|]. split.
  - unfold required_fields. rewrite !filter_cons, filter_nil.
    rule_cases m; autorewrite with issue_kinds; reflexivity.
  - intros field Hfield. unfold required_fields in Hfield.
    rewrite !elem_of_cons, elem_of_nil in Hfield.
    destruct Hfield as [->|[->|[->|[]]]]; (split; [count_rules m|issue_elem m]).
Qed.

(** C5. For a manifest whose [theme] is an object, the validator reports
    "theme block should include at least 'colors' or 'images'" once when
    the object has neither key, and reports nothing about the theme when
    it has at least one of them. *)
Theorem theme_keys_issue_rule (repr_other : json → string) (p : Path)
    (m theme_block : gmap string json) :
  m !! "theme" = Some (JObject theme_block) →
  ∃ issues, validate_manifest repr_other p (JObject m) = Ok issues
    ∧ count is_theme_keys_issue issues
      = (if has_key theme_block "colors" || has_key theme_block "images" then 0 else 1)
    ∧ count is_theme_issue issues = count is_theme_keys_issue issues
    ∧ (has_key theme_block "colors" || has_key theme_block "images" = false →
       Issue p theme_keys_message ∈ issues).
Proof.
  intros Htheme.
  eexists. split; [apply validate_manifest_dict|].
  unfold rule_theme, rule_version, rule_field. rewrite Htheme.
  destruct (has_key theme_block "colors" || has_key theme_block "images");
    unfold has_key; rewrite Htheme;
    destruct (py_eq_int (default JNull (m !! "manifest_version")) 3);
    destruct (m !! "name"), (m !! "version");
    cbn [bool_decide decide_rel is_Some_dec decide];
    autorewrite with issue_kinds;
    (split; [reflexivity|split; [reflexivity|]]); try done.
  all: intros _; set_solver.
Qed.

(** C10. Every issue made for a manifest path carries that path: the one
    [load_manifest] returns, and each one in the list
    [validate_manifest] returns. *)
Theorem issues_carry_their_path (repr_other : json → string)
    (json_loads : string → parsed) (fs : filesystem) (p : Path) :
  (∀ issue, load_manifest json_loads fs p = Ok (Failed issue) → path issue = p)
  ∧ (∀ manifest issues, validate_manifest repr_other p manifest = Ok issues →
       Forall (λ issue, path issue = p) issues).
Proof.
  split.
  - intros issue. unfold load_manifest.
    destruct (path_exists fs p); simpl; [|by intros [= <-]].
    destruct (read_text fs p) as [text|]; simpl; [|done].
    destruct (json_loads text); simpl; [done|]. by intros [= <-].
  - intros manifest issues.
    destruct manifest as [| | | | | |m]; try done.
    rewrite validate_manifest_dict. intros [= <-].
    rule_cases m; rewrite ?Forall_app; repeat split; by repeat constructor.
Qed.

(** ** The driver *)

Lemma for_each_cons {S A} (x : A) (xs : list A) (body : A → M S unit) (s : S) :
  for_each (x :: xs) body s
  = match body x s with
    | Ok (_, s') => for_each xs body s'
    | Raise e => Raise e
    end.
Proof. done. Qed.

Lemma scan_one_manifest_issues repr_other json_loads fs p all_issues :
  scan_one repr_other json_loads fs p all_issues
  = (new ← manifest_issues repr_other json_loads fs p;
     mret ((), all_issues ++ new)).
Proof.
  unfold scan_one, manifest_issues, mbind, M_bind, result_bind, lift.
  destruct (load_manifest json_loads fs p) as [[doc|i]|e]; [|done|done].
  by destruct (validate_manifest repr_other p doc).
Qed.

Lemma for_each_scan_one repr_other json_loads fs paths all_issues :
  for_each paths (scan_one repr_other json_loads fs) all_issues
  = (per ← mapM (manifest_issues repr_other json_loads fs) paths;
     mret ((), all_issues ++ concat per)).
Proof.
  revert all_issues. induction paths as [|p paths IH]; intros all_issues.
  - simpl. unfold mret, M_ret, result_ret. by rewrite app_nil_r.
  - rewrite for_each_cons, scan_one_manifest_issues. cbn [mapM].
    destruct (manifest_issues repr_other json_loads fs p) as [new|e]; [|done].
    simpl. rewrite IH.
    destruct (mapM _ paths) as [per|e]; [|done].
    simpl. by rewrite (assoc_L (++)).
Qed.

Lemma scan_manifest_issues repr_other json_loads fs root :
  scan repr_other json_loads fs root
  = (paths ← iter_manifest_paths fs root;
     per ← mapM (manifest_issues repr_other json_loads fs) paths;
     mret (concat per)).
Proof.
  unfold scan. destruct (iter_manifest_paths fs root) as [paths|e]; [|done].
  simpl. rewrite for_each_scan_one. simpl.
  by destruct (mapM _ paths).
Qed.

Lemma main_root_missing repr_other json_loads (fs : filesystem) root :
  fs root = Missing →
  main repr_other json_loads fs root
  = Ok (Outcome 2 [] ["error: themes directory not found: " +:+ path_str root]).
Proof. intros H. unfold main, path_exists. by rewrite H. Qed.

Lemma main_root_present repr_other json_loads (fs : filesystem) root :
  fs root ≠ Missing →
  main repr_other json_loads fs root
  = (all_issues ← scan repr_other json_loads fs root;
     if bool_decide (all_issues ≠ []) then Ok (Outcome 1 (failure_report all_issues) [])
     else Ok (Outcome 0 ["All theme manifests look good."] [])).
Proof. intros H. unfold main, path_exists. by destruct (fs root). Qed.

(** C9. The validator lists the issues of a manifest in the order of its
    rules: the version, then the required fields [name], [version],
    [theme], then the shape of the theme. The scan lists the issues of
    the manifests one manifest after the other, in the order the locator
    yields their paths. *)
Theorem issues_in_rule_and_path_order (repr_other : json → string)
    (json_loads : string → parsed) (fs : filesystem) (root : Path) :
  (∀ p m, validate_manifest repr_other p (JObject m)
          = Ok (rule_version repr_other p m ++ rule_field p m "name"
                  ++ rule_field p m "version" ++ rule_field p m "theme"
                  ++ rule_theme p m))
  ∧ scan repr_other json_loads fs root
    = (paths ← iter_manifest_paths fs root;
       per ← mapM (manifest_issues repr_other json_loads fs) paths;
       mret (concat per)).
Proof. split; [apply validate_manifest_dict|apply scan_manifest_issues]. Qed.

(** C8. Without the themes directory the run prints one line on the
    error stream, nothing on the output stream, and exits with 2. With
    it, a scan that ends with issues prints the header and one line per
    issue and exits with 1; a scan that ends with none prints the line of
    success and exits with 0. *)
Theorem exit_codes (repr_other : json → string) (json_loads : string → parsed)
    (fs : filesystem) (root : Path) :
  (fs root = Missing →
     main repr_other json_loads fs root
     = Ok (Outcome 2 [] ["error: themes directory not found: " +:+ path_str root]))
  ∧ (∀ all_issues, fs root ≠ Missing →
       scan repr_other json_loads fs root = Ok all_issues → all_issues ≠ [] →
       main repr_other json_loads fs root
       = Ok (Outcome 1
               ("Theme manifest validation failed:"
                  :: ((λ issue, "  - " +:+ path_str (path issue) +:+ ": " +:+ message issue)
                        <$> all_issues))
               [])
         ∧ length (stdout (Outcome 1 (failure_report all_issues) [])) = S (length all_issues))
  ∧ (fs root ≠ Missing → scan repr_other json_loads fs root = Ok [] →
     main repr_other json_loads fs root
     = Ok (Outcome 0 ["All theme manifests look good."] [])).
Proof.
  split; [apply main_root_missing|]. split.
  - intros all_issues Hroot Hscan Hne. rewrite main_root_present, Hscan by done.
    simpl. rewrite bool_decide_true by done. split; [done|].
    by rewrite length_fmap.
  - intros Hroot Hscan. by rewrite main_root_present, Hscan.
Qed.

(** C3, where the code departs from it. A manifest whose text parses to a
    value that is not a [dict] (an array, a string, a number, a boolean,
    [null]) is returned by the loader as it is, and the validator then
    raises [AttributeError] at [manifest.get]: with such a manifest in
    the only theme directory, the exception ends the run. *)
Theorem non_object_manifest_raises (repr_other : json → string)
    (json_loads : string → parsed) (fs : filesystem) (root : Path)
    (name text : string) (doc : json) :
  fs root = Dir [name] →
  String.prefix "." name = false →
  is_dir fs (joinpath root name) = true →
  fs (manifest_path root name) = File (Ok text) →
  json_loads text = Parsed doc →
  isinstance_dict doc = false →
  load_manifest json_loads fs (manifest_path root name) = Ok (Document doc)
  ∧ validate_manifest repr_other (manifest_path root name) doc
    = Raise (AttributeError (py_type_name doc) "get")
  ∧ main repr_other json_loads fs root = Raise (AttributeError (py_type_name doc) "get").
Proof.
  intros Hroot Hvisible Hdir Hfile Hloads Hshape.
  assert (load_manifest json_loads fs (manifest_path root name) = Ok (Document doc))
    as Hload by (by rewrite (load_manifest_text _ _ _ text), Hloads).
  pose proof (validate_manifest_not_dict repr_other (manifest_path root name) doc Hshape)
    as Hvalidate.
  split; [done|]. split; [done|].
  rewrite main_root_present, scan_manifest_issues by (by rewrite Hroot).
  unfold iter_manifest_paths, iterdir. rewrite Hroot. simpl.
  rewrite path_name_joinpath, Hvisible, Hdir. simpl.
  unfold manifest_issues. fold (manifest_path root name).
  rewrite Hload. simpl. by rewrite Hvalidate.
Qed.

(** ** The properties on the examples *)

Import Examples.

Example locator_themes :
  iter_manifest_paths themes THEMES_DIR
  = Ok [manifest_path THEMES_DIR "blank"; manifest_path THEMES_DIR "broken";
        manifest_path THEMES_DIR "empty"].
Proof. vm_compute. reflexivity. Qed.

Example validate_solarized :
  validate_manifest repr_other solarized_path (JObject solarized) = Ok [].
Proof. vm_compute. reflexivity. Qed.

Example validate_badversion :
  validate_manifest repr_other solarized_path (JObject badversion)
  = Ok [Issue solarized_path "expected manifest_version 3, found 2"].
Proof. vm_compute. reflexivity. Qed.

Example validate_untitled :
  validate_manifest repr_other solarized_path (JObject untitled)
  = Ok [Issue solarized_path "missing required field 'theme'";
        Issue solarized_path "theme section must be an object"].
Proof. vm_compute. reflexivity. Qed.

Example validate_solarized_float :
  validate_manifest repr_other solarized_path (JObject solarized_float) = Ok [].
Proof. vm_compute. reflexivity. Qed.

Example main_themes :
  main repr_other json_loads themes THEMES_DIR
  = Ok (Outcome 1
          ["Theme manifest validation failed:";
           "  - archon/extensions/themes/blank/manifest.json: expected manifest_version 3, found None";
           "  - archon/extensions/themes/blank/manifest.json: missing required field 'name'";
           "  - archon/extensions/themes/blank/manifest.json: missing required field 'version'";
           "  - archon/extensions/themes/blank/manifest.json: missing required field 'theme'";
           "  - archon/extensions/themes/blank/manifest.json: theme section must be an object";
           "  - archon/extensions/themes/broken/manifest.json: missing manifest.json";
           "  - archon/extensions/themes/empty/manifest.json: invalid JSON: Expecting value: line 1 column 1 (char 0)"]
          []).
Proof. vm_compute. reflexivity. Qed.

(** C1 as stated fails: a manifest with no [theme] key gets the issue
    "theme section must be an object" although the key is not present. *)
Lemma theme_absent_counterexample :
  ¬ (∀ issues,
       validate_manifest repr_other solarized_path (JObject untitled) = Ok issues →
       (Issue solarized_path theme_object_message ∈ issues
        ↔ ∃ v, untitled !! "theme" = Some v ∧ isinstance_dict v = false)).
Proof.
  intros H. destruct (H _ validate_untitled) as [Habsent _].
  destruct Habsent as (v & Hv & _); [set_solver|].
  vm_compute in Hv. discriminate Hv.
Qed.

(** C2 as stated fails: the version [3.0] is a float, not the integer
    [3], and the validator reports nothing about it. *)
Lemma float_version_counterexample :
  ¬ (∀ issues,
       validate_manifest repr_other solarized_path (JObject solarized_float) = Ok issues →
       solarized_float !! "manifest_version" ≠ Some (JInt 3) →
       count is_version_issue issues = 1).
Proof.
  intros H. specialize (H _ validate_solarized_float).
  assert (count is_version_issue [] = 1) as Hcount; [|discriminate Hcount].
  apply H. vm_compute. discriminate.
Qed.

(** The rule of the theme object on the manifest with no [theme] key. *)
Lemma theme_object_issue_rule_untitled :
  ∃ issues,
    validate_manifest repr_other solarized_path (JObject untitled) = Ok issues
    ∧ count is_theme_object_issue issues = 1
    ∧ Issue solarized_path theme_object_message ∈ issues
    ∧ count is_theme_keys_issue issues = 0
    ∧ Issue solarized_path (missing_field_message "theme") ∈ issues.
Proof.
  destruct (theme_object_issue_rule repr_other solarized_path untitled)
    as (issues & Hvalidate & Hcount & Hiff & Hkeys & Hmissing).
  exists issues. split; [exact Hvalidate|]. split; [exact Hcount|].
  split; [apply Hiff; left; reflexivity|].
  split; [apply Hkeys; reflexivity|apply Hmissing; reflexivity].
Defined.

(** The rule of the version on the manifest of version [2]. *)
Lemma version_issue_rule_badversion :
  ∃ issues,
    validate_manifest repr_other solarized_path (JObject badversion) = Ok issues
    ∧ count is_version_issue issues = 1
    ∧ Issue solarized_path "expected manifest_version 3, found 2" ∈ issues.
Proof.
  destruct (version_issue_rule repr_other solarized_path badversion)
    as (issues & Hvalidate & Hcount & Hfound & _).
  exists issues. split; [exact Hvalidate|]. split; [exact Hcount|].
  apply Hfound. reflexivity.
Defined.

(** The manifest [[]] in the only theme directory ends the run. *)
Lemma non_object_manifest_raises_array :
  array_theme THEMES_DIR = Dir ["listy"]
  ∧ json_loads "[]" = Parsed (JArray [])
  ∧ load_manifest json_loads array_theme (manifest_path THEMES_DIR "listy")
    = Ok (Document (JArray []))
  ∧ validate_manifest repr_other (manifest_path THEMES_DIR "listy") (JArray [])
    = Raise (AttributeError "list" "get")
  ∧ main repr_other json_loads array_theme THEMES_DIR
    = Raise (AttributeError "list" "get").
Proof.
  split; [reflexivity|]. split; [reflexivity|].
  apply (non_object_manifest_raises repr_other json_loads array_theme THEMES_DIR
           "listy" "[]" (JArray [])); reflexivity.
Defined.

(** The required fields on the empty manifest [{}]. *)
Lemma required_field_issues_blank :
  ∃ issues,
    validate_manifest repr_other (manifest_path THEMES_DIR "blank") (JObject ∅) = Ok issues
    ∧ count is_required_field_issue issues = 3
    ∧ Issue (manifest_path THEMES_DIR "blank") (missing_field_message "name") ∈ issues
    ∧ Issue (manifest_path THEMES_DIR "blank") (missing_field_message "version") ∈ issues
    ∧ Issue (manifest_path THEMES_DIR "blank") (missing_field_message "theme") ∈ issues.
Proof.
  destruct (required_field_issues repr_other (manifest_path THEMES_DIR "blank") ∅)
    as (issues & Hvalidate & Hcount & Hfields).
  exists issues. split; [exact Hvalidate|]. split; [exact Hcount|].
  repeat split.
  - apply (Hfields "name"); [set_solver|reflexivity].
  - apply (Hfields "version"); [set_solver|reflexivity].
  - apply (Hfields "theme"); [set_solver|reflexivity].
Defined.

(** The rule of the theme keys on a theme block with neither key. *)
Lemma theme_keys_issue_rule_bare_theme :
  bare_theme !! "theme" = Some (JObject {[ "tints" := JObject ∅ ]})
  ∧ ∃ issues,
      validate_manifest repr_other solarized_path (JObject bare_theme) = Ok issues
      ∧ count is_theme_keys_issue issues = 1
      ∧ count is_theme_issue issues = count is_theme_keys_issue issues
      ∧ Issue solarized_path theme_keys_message ∈ issues.
Proof.
  split; [reflexivity|].
  destruct (theme_keys_issue_rule repr_other solarized_path bare_theme
              {[ "tints" := JObject ∅ ]} eq_refl)
    as (issues & Hvalidate & Hcount & Htheme & Hkeys).
  exists issues. split; [exact Hvalidate|]. split; [exact Hcount|].
  split; [exact Htheme|]. apply Hkeys. reflexivity.
Defined.

(** The locator on the themes directory of the examples. *)
Lemma locator_yields_sorted_theme_dirs_themes :
  themes THEMES_DIR = Dir ["empty"; ".git"; "README.md"; "broken"; "blank"]
  ∧ ∃ dirs,
      iter_manifest_paths themes THEMES_DIR = Ok (manifest_path THEMES_DIR <$> dirs)
      ∧ StronglySorted str_le dirs
      ∧ dirs ≡ₚ filter (is_theme_dir themes THEMES_DIR)
                  ["empty"; ".git"; "README.md"; "broken"; "blank"].
Proof.
  split; [reflexivity|].
  apply (locator_yields_sorted_theme_dirs themes THEMES_DIR). reflexivity.
Defined.

(** The loader on the three theme directories of the examples. *)
Lemma loader_results_themes :
  load_manifest json_loads themes (manifest_path THEMES_DIR "broken")
  = Ok (Failed (Issue (manifest_path THEMES_DIR "broken") "missing manifest.json"))
  ∧ load_manifest json_loads themes (manifest_path THEMES_DIR "empty")
    = Ok (Failed (Issue (manifest_path THEMES_DIR "empty")
                    "invalid JSON: Expecting value: line 1 column 1 (char 0)"))
  ∧ load_manifest json_loads themes (manifest_path THEMES_DIR "blank")
    = Ok (Document (JObject ∅))
  ∧ for_each [manifest_path THEMES_DIR "broken"; manifest_path THEMES_DIR "empty"]
      (scan_one repr_other json_loads themes) []
    = for_each [manifest_path THEMES_DIR "empty"]
        (scan_one repr_other json_loads themes)
        [Issue (manifest_path THEMES_DIR "broken") "missing manifest.json"].
Proof.
  destruct (loader_results repr_other json_loads themes (manifest_path THEMES_DIR "broken"))
    as (Hmissing & _ & _ & Hnext).
  destruct (loader_results repr_other json_loads themes (manifest_path THEMES_DIR "empty"))
    as (_ & Hinvalid & _ & _).
  destruct (loader_results repr_other json_loads themes (manifest_path THEMES_DIR "blank"))
    as (_ & _ & Hparsed & _).
  split; [apply Hmissing; reflexivity|].
  split; [apply (Hinvalid ""); reflexivity|].
  split; [apply (Hparsed "{}"); reflexivity|].
  apply (Hnext _ _ []). apply Hmissing. reflexivity.
Defined.

(** The three ways a run ends, on the examples. *)
Lemma exit_codes_examples :
  main repr_other json_loads no_root THEMES_DIR
  = Ok (Outcome 2 []
          ["error: themes directory not found: archon/extensions/themes"])
  ∧ main repr_other json_loads themes THEMES_DIR
    = Ok (Outcome 1
            ["Theme manifest validation failed:";
             "  - archon/extensions/themes/blank/manifest.json: expected manifest_version 3, found None";
             "  - archon/extensions/themes/blank/manifest.json: missing required field 'name'";
             "  - archon/extensions/themes/blank/manifest.json: missing required field 'version'";
             "  - archon/extensions/themes/blank/manifest.json: missing required field 'theme'";
             "  - archon/extensions/themes/blank/manifest.json: theme section must be an object";
             "  - archon/extensions/themes/broken/manifest.json: missing manifest.json";
             "  - archon/extensions/themes/empty/manifest.json: invalid JSON: Expecting value: line 1 column 1 (char 0)"]
            [])
  ∧ main repr_other json_loads no_themes THEMES_DIR
    = Ok (Outcome 0 ["All theme manifests look good."] []).
Proof.
  destruct (exit_codes repr_other json_loads no_root THEMES_DIR) as (Hmissing & _ & _).
  destruct (exit_codes repr_other json_loads themes THEMES_DIR) as (_ & Hfail & _).
  destruct (exit_codes repr_other json_loads no_themes THEMES_DIR) as (_ & _ & Hgood).
  split; [apply Hmissing; reflexivity|]. split.
  - pose (blank := manifest_path THEMES_DIR "blank").
    destruct (Hfail [Issue blank (version_message "None");
                     Issue blank (missing_field_message "name");
                     Issue blank (missing_field_message "version");
                     Issue blank (missing_field_message "theme");
                     Issue blank theme_object_message;
                     Issue (manifest_path THEMES_DIR "broken") "missing manifest.json";
                     Issue (manifest_path THEMES_DIR "empty")
                       "invalid JSON: Expecting value: line 1 column 1 (char 0)"])
      as [Hmain _]; [discriminate|reflexivity|discriminate|exact Hmain].
  - apply Hgood; [discriminate|reflexivity].
Defined.

(** The paths of the issues of the loader and of the validator, on the
    examples. *)
Lemma issues_carry_their_path_examples :
  path (Issue (manifest_path THEMES_DIR "broken") "missing manifest.json")
  = manifest_path THEMES_DIR "broken"
  ∧ Forall (λ issue, path issue = solarized_path)
      [Issue solarized_path "missing required field 'theme'";
       Issue solarized_path "theme section must be an object"].
Proof.
  destruct (issues_carry_their_path repr_other json_loads themes
              (manifest_path THEMES_DIR "broken")) as (Hload & _).
  destruct (issues_carry_their_path repr_other json_loads themes solarized_path)
    as (_ & Hvalidate).
  split; [apply Hload; reflexivity|].
  apply (Hvalidate (JObject untitled)). exact validate_untitled.
Defined.

(** * Further properties of the script *)

(** ** The validator *)

Lemma validate_manifest_nil_iff_dict repr p m :
  validate_manifest repr p (JObject m) = Ok [] ↔ conformant m = true.
Proof.
  rewrite validate_manifest_dict. unfold conformant.
  rule_cases m; cbn; split; (done || discriminate).
Qed.

(** X1. The validator returns the empty list exactly for the conformant
    manifests: a [dict] with a version equal to [3], the keys [name] and
    [version], and a [theme] object with [colors] or [images]. *)
Theorem validate_manifest_nil_iff (repr : json → string) (p : Path)
    (manifest : json) :
  validate_manifest repr p manifest = Ok []
  ↔ ∃ m, manifest = JObject m ∧ conformant m = true.
Proof.
  destruct manifest as [| | | | | |m]; try (split; [done|by intros (? & ? & _)]).
  rewrite validate_manifest_nil_iff_dict. naive_solver.
Qed.

(** X2. On a manifest that is a [dict] the validator does not raise, and
    it returns at most five issues, no two of them equal. *)
Theorem validate_manifest_bounded (repr : json → string) (p : Path)
    (m : gmap string json) :
  ∃ issues, validate_manifest repr p (JObject m) = Ok issues
            ∧ (length issues ≤ 5)%nat ∧ NoDup issues.
Proof.
  eexists. split; [apply validate_manifest_dict|].
  rule_cases m; cbn [app length]; (split; [lia|]);
    rewrite ?NoDup_cons, ?not_elem_of_cons; unfold version_message;
    repeat split; try apply NoDup_nil_2; try apply not_elem_of_nil; discriminate.
Qed.

(** X3. A key the validator does not look up changes nothing: adding it
    to a manifest, with whatever value, leaves the issues as they are. *)
Theorem unchecked_key_ignored (repr : json → string) (p : Path)
    (m : gmap string json) (key : string) (v : json) :
  key ∉ checked_keys →
  validate_manifest repr p (JObject (<[key:=v]> m))
  = validate_manifest repr p (JObject m).
Proof.
  unfold checked_keys. rewrite !not_elem_of_cons. intros (? & ? & ? & ? & _).
  rewrite !validate_manifest_dict.
  unfold rule_version, rule_field, rule_theme, has_key.
  by rewrite !lookup_insert_ne.
Qed.

(** X4. The values of [name] and [version] are not looked at: giving a
    key that is present another value leaves the issues as they are. *)
Theorem field_value_ignored (repr : json → string) (p : Path)
    (m : gmap string json) (field : string) (v : json) :
  field ∈ ["name"; "version"] → is_Some (m !! field) →
  validate_manifest repr p (JObject (<[field:=v]> m))
  = validate_manifest repr p (JObject m).
Proof.
  rewrite !elem_of_cons, elem_of_nil. intros [->|[->|[]]] [v' Hv'].
  all: rewrite !validate_manifest_dict.
  all: unfold rule_version, rule_field, rule_theme, has_key.
  all: rewrite lookup_insert_eq, Hv', !lookup_insert_ne by done; done.
Qed.

(** ** The loader *)


Lemma manifest_issues_nil_iff repr loads (fs : filesystem) p :
  manifest_issues repr loads fs p = Ok []
  ↔ ∃ text m, fs p = File (Ok text) ∧ loads text = Parsed (JObject m)
              ∧ conformant m = true.
Proof.
  unfold manifest_issues, load_manifest, path_exists, read_text.
  destruct (fs p) as [|[text|e']|names]; cbn -[validate_manifest];
    try (split; [done|by intros (? & ? & ? & _)]).
  destruct (loads text) as [doc|err] eqn:Hloads; cbn -[validate_manifest].
  - destruct doc as [| | | | | |m];
      try (split; [done|intros (? & ? & [= <-] & ? & _); congruence]).
    rewrite validate_manifest_nil_iff_dict. split.
    + intros Hm. by exists text, m.
    + intros (? & ? & [= <-] & ? & Hm). congruence.
  - split; [done|]. intros (? & ? & [= <-] & ? & _). congruence.
Qed.

(** ** The locator and the driver *)

#[global] Instance path_le_antisymm : AntiSymm (=) path_le.
Proof.
  intros p q. unfold path_le. rewrite (path_compare_antisym q p).
  destruct (path_compare p q) eqn:E; simpl; [|done..].
  intros _ _. by apply path_compare_eq.
Qed.

Lemma sorted_Permutation (l1 l2 : list Path) : l1 ≡ₚ l2 → sorted l1 = sorted l2.
Proof.
  intros Hperm. unfold sorted.
  apply (Sorted_unique path_le); try apply (Sorted_merge_sort path_le).
  by rewrite !merge_sort_Permutation.
Qed.

Lemma iter_manifest_paths_dirs (fs : filesystem) root names :
  fs root = Dir names →
  ∃ dirs, iter_manifest_paths fs root = Ok (manifest_path root <$> dirs)
          ∧ ∀ d, d ∈ dirs ↔ d ∈ names ∧ is_theme_dir fs root d.
Proof.
  intros Hroot. unfold iter_manifest_paths, iterdir. rewrite Hroot. simpl.
  destruct (sorted_entries root names) as (ns & -> & _ & Hperm).
  exists (filter (is_theme_dir fs root) ns). split.
  - unfold mret, result_ret. f_equal. apply yield_manifest_paths_entries.
  - intros d. rewrite list_elem_of_filter, Hperm. tauto.
Qed.

Lemma mapM_concat_nil {A} (f : A → result (list ManifestIssue)) (l : list A) :
  (per ← mapM f l; mret (concat per)) = Ok [] ↔ Forall (λ x, f x = Ok []) l.
Proof.
  induction l as [|x l IH]; cbn [mapM].
  - split; [constructor|done].
  - rewrite Forall_cons, <- IH.
    destruct (f x) as [issues|e]; simpl; [|by split; [|intros [? _]]].
    destruct (mapM f l) as [per|e]; simpl; [|by split; [|intros [_ ?]]].
    unfold mret, result_ret. split.
    + intros [= [-> ->]%app_eq_nil]. done.
    + intros [[= ->] [= ->]]. done.
Qed.

Lemma main_exit_zero_iff_scan repr loads (fs : filesystem) root :
  fs root ≠ Missing →
  main repr loads fs root = Ok (Outcome 0 ["All theme manifests look good."] [])
  ↔ scan repr loads fs root = Ok [].
Proof.
  intros Hroot. rewrite main_root_present by done.
  destruct (scan repr loads fs root) as [[|i all_issues]|e]; simpl; [done| |done].
  split; discriminate.
Qed.

Lemma scan_nil_iff repr loads (fs : filesystem) root names :
  fs root = Dir names →
  scan repr loads fs root = Ok []
  ↔ ∀ d, d ∈ names → is_theme_dir fs root d →
         manifest_issues repr loads fs (manifest_path root d) = Ok [].
Proof.
  intros Hroot. rewrite scan_manifest_issues.
  destruct (iter_manifest_paths_dirs fs root names Hroot) as (dirs & -> & Hdirs).
  cbn [mbind result_bind]. rewrite mapM_concat_nil, Forall_fmap, Forall_forall.
  split.
  - intros H d Hd Hdir. apply H, Hdirs. done.
  - intros H d [Hd Hdir]%Hdirs. by apply H.
Qed.

Lemma joinpath_ne (p : Path) name : joinpath p name ≠ p.
Proof.
  unfold joinpath. intros H. apply (f_equal length) in H.
  rewrite length_app in H. simpl in H. lia.
Qed.

Lemma manifest_path_ne root d : manifest_path root d ≠ root.
Proof.
  unfold manifest_path, joinpath. intros H. apply (f_equal length) in H.
  rewrite !length_app in H. simpl in H. lia.
Qed.

Lemma manifest_issues_ext repr loads (fs fs' : filesystem) p :
  fs p = fs' p →
  manifest_issues repr loads fs p = manifest_issues repr loads fs' p.
Proof.
  intros H. unfold manifest_issues, load_manifest, path_exists, read_text.
  by rewrite H.
Qed.

Lemma mapM_result_ext {A B} (f g : A → result B) (l : list A) :
  Forall (λ x, f x = g x) l → mapM f l = mapM g l.
Proof. induction 1 as [|x l Hx _ IH]; cbn [mapM]; [done|]. by rewrite Hx, IH. Qed.

Lemma mapM_result_raise {A B} (f : A → result B) (l1 l2 : list A) (x : A) e :
  Forall (λ y, ∃ b, f y = Ok b) l1 → f x = Raise e →
  mapM f (l1 ++ x :: l2) = Raise e.
Proof.
  intros Hl1 Hx. induction Hl1 as [|y l1 [b Hy] _ IH]; cbn [mapM app].
  - by rewrite Hx.
  - by rewrite Hy, IH.
Qed.

(** X6. When the themes path exists but is not a directory, listing it
    raises [NotADirectoryError] and the run ends with that exception:
    the check of [main] is for existence only. *)
Theorem main_root_not_a_directory (repr : json → string) (loads : string → parsed)
    (fs : filesystem) (root : Path) (content : result string) :
  fs root = File content →
  iter_manifest_paths fs root = Raise NotADirectoryError
  ∧ main repr loads fs root = Raise NotADirectoryError.
Proof.
  intros Hroot.
  assert (iter_manifest_paths fs root = Raise NotADirectoryError) as Hiter
    by (unfold iter_manifest_paths, iterdir; by rewrite Hroot).
  split; [done|].
  rewrite main_root_present, scan_manifest_issues by (by rewrite Hroot).
  by rewrite Hiter.
Qed.

(** X7. The order in which the operating system lists the themes
    directory plays no part: two file systems that differ only in the
    order of that listing give the same manifest paths and the same
    run. *)
Theorem listing_order_irrelevant (repr : json → string) (loads : string → parsed)
    (fs fs' : filesystem) (root : Path) (names names' : list string) :
  fs root = Dir names → fs' root = Dir names' → names ≡ₚ names' →
  (∀ p, p ≠ root → fs p = fs' p) →
  iter_manifest_paths fs root = iter_manifest_paths fs' root
  ∧ main repr loads fs root = main repr loads fs' root.
Proof.
  intros Hroot Hroot' Hperm Hsame.
  assert (iter_manifest_paths fs root = iter_manifest_paths fs' root) as Hiter.
  { unfold iter_manifest_paths, iterdir. rewrite Hroot, Hroot'. simpl.
    rewrite (sorted_Permutation (joinpath root <$> names') (joinpath root <$> names))
      by (by rewrite Hperm).
    destruct (sorted_entries root names) as (ns & -> & _ & _).
    rewrite !yield_manifest_paths_entries. unfold mret, result_ret. do 2 f_equal.
    apply list_filter_iff. intros n. unfold is_theme_dir, is_dir.
    by rewrite (Hsame (joinpath root n)) by apply joinpath_ne. }
  split; [done|].
  rewrite !main_root_present, !scan_manifest_issues by congruence.
  rewrite <- Hiter.
  destruct (iter_manifest_paths_dirs fs root names Hroot) as (dirs & -> & _).
  cbn [mbind result_bind].
  rewrite (mapM_result_ext (manifest_issues repr loads fs)
             (manifest_issues repr loads fs')); [done|].
  apply Forall_fmap, Forall_forall. intros d _. simpl.
  apply manifest_issues_ext, Hsame, manifest_path_ne.
Qed.

(** X8. With the themes directory in place, the run ends with the line
    of success and exit code 0 exactly when every entry that is not
    hidden and is a directory holds a manifest that is readable, parses
    to an object and is conformant. *)
Theorem main_exit_zero_iff (repr : json → string) (loads : string → parsed)
    (fs : filesystem) (root : Path) (names : list string) :
  fs root = Dir names →
  main repr loads fs root = Ok (Outcome 0 ["All theme manifests look good."] [])
  ↔ ∀ d, d ∈ names → is_theme_dir fs root d →
         ∃ text m, fs (manifest_path root d) = File (Ok text)
                   ∧ loads text = Parsed (JObject m) ∧ conformant m = true.
Proof.
  intros Hroot.
  rewrite main_exit_zero_iff_scan by (by rewrite Hroot).
  rewrite (scan_nil_iff _ _ _ _ names Hroot).
  by setoid_rewrite manifest_issues_nil_iff.
Qed.

(** X9. An exception in one manifest ends the whole run: when the
    manifests before it are handled and it raises (a manifest that
    cannot be read, or one that is not an object), [main] raises the
    same exception and reports none of the issues found so far. *)
Theorem raising_manifest_ends_run (repr : json → string) (loads : string → parsed)
    (fs : filesystem) (root : Path) (before after : list Path) (p : Path)
    (e : exn) :
  fs root ≠ Missing →
  iter_manifest_paths fs root = Ok (before ++ p :: after) →
  Forall (λ q, ∃ issues, manifest_issues repr loads fs q = Ok issues) before →
  manifest_issues repr loads fs p = Raise e →
  main repr loads fs root = Raise e.
Proof.
  intros Hroot Hiter Hbefore Hp.
  rewrite main_root_present, scan_manifest_issues, Hiter by done.
  cbn [mbind result_bind].
  by rewrite (mapM_result_raise _ before after p e).
Qed.

(** X10. Whenever [main] returns, the outcome has one of three shapes:
    exit code 2 with one line on the error stream and nothing on the
    output stream (no themes directory); exit code 1 with the header
    and one line per issue of a non-empty scan; exit code 0 with the
    line of success after a scan with no issue. The error stream is
    used in the first case only. *)
Theorem main_outcomes (repr : json → string) (loads : string → parsed)
    (fs : filesystem) (root : Path) (o : outcome) :
  main repr loads fs root = Ok o →
  (fs root = Missing ∧ exit_code o = 2%Z ∧ stdout o = [] ∧ length (stderr o) = 1)
  ∨ (fs root ≠ Missing ∧ exit_code o = 1%Z ∧ stderr o = []
     ∧ ∃ all_issues, scan repr loads fs root = Ok all_issues ∧ all_issues ≠ []
                     ∧ stdout o = failure_report all_issues
                     ∧ length (stdout o) = S (length all_issues))
  ∨ (fs root ≠ Missing ∧ scan repr loads fs root = Ok []
     ∧ o = Outcome 0 ["All theme manifests look good."] []).
Proof.
  assert (fs root = Missing ∨ fs root ≠ Missing) as [Hroot|Hroot]
    by (destruct (fs root); [by left|by right..]).
  - rewrite main_root_missing by done. intros [= <-]. left. done.
  - rewrite main_root_present by done.
    destruct (scan repr loads fs root) as [[|i all_issues]|e]; simpl; [| |done].
    + intros [= <-]. right. right. done.
    + intros [= <-]. right. left. repeat split; [done..|].
      exists (i :: all_issues). repeat split; [done|].
      unfold failure_report. simpl. by rewrite length_fmap.
Qed.

(** X11. A themes directory in which no entry is a directory with a
    name that does not start with a dot passes: the run prints the line
    of success and returns 0, whatever else the directory holds. *)
Theorem main_no_theme_dirs (repr : json → string) (loads : string → parsed)
    (fs : filesystem) (root : Path) (names : list string) :
  fs root = Dir names →
  Forall (λ name, ¬ is_theme_dir fs root name) names →
  iter_manifest_paths fs root = Ok []
  ∧ main repr loads fs root = Ok (Outcome 0 ["All theme manifests look good."] []).
Proof.
  intros Hroot Hnone. rewrite Forall_forall in Hnone. split.
  - destruct (iter_manifest_paths_dirs fs root names Hroot) as (dirs & -> & Hdirs).
    destruct dirs as [|d dirs]; [done|].
    destruct (Hdirs d) as [[Hd Hdir] _]; [set_solver|]. by destruct (Hnone d).
  - apply main_exit_zero_iff_scan; [by rewrite Hroot|].
    apply (scan_nil_iff _ _ _ _ names Hroot). intros d Hd Hdir.
    by destruct (Hnone d).
Qed.

(** X12. The exit status of the script is 0, 1 or 2, and it is 0 only
    when [main] returns after printing the line of success: an issue, a
    missing themes directory and an exception all give a status other
    than 0. *)
Theorem exit_status_zero_iff (repr : json → string) (loads : string → parsed)
    (fs : filesystem) (root : Path) :
  exit_status (main repr loads fs root) ∈ [0; 1; 2]%Z
  ∧ (exit_status (main repr loads fs root) = 0%Z
     ↔ main repr loads fs root
       = Ok (Outcome 0 ["All theme manifests look good."] [])).
Proof.
  assert (fs root = Missing ∨ fs root ≠ Missing) as [Hroot|Hroot]
    by (destruct (fs root); [by left|by right..]).
  - rewrite main_root_missing by done. simpl. split; [set_solver|done].
  - rewrite main_root_present by done.
    destruct (scan repr loads fs root) as [[|i all_issues]|e]; simpl;
      (split; [set_solver|done]).
Qed.

(** X13. The loader makes two issues and no other: "missing
    manifest.json" for a path with nothing there, and "invalid JSON: "
    with the diagnostic for a readable text the parser rejects; it
    returns a document exactly for a readable text the parser accepts. *)
Theorem load_manifest_results_iff (loads : string → parsed) (fs : filesystem)
    (p : Path) :
  (∀ issue, load_manifest loads fs p = Ok (Failed issue)
     ↔ (fs p = Missing ∧ issue = Issue p "missing manifest.json")
       ∨ ∃ text err, fs p = File (Ok text) ∧ loads text = JSONDecodeError err
                     ∧ issue = Issue p ("invalid JSON: " +:+ err))
  ∧ (∀ doc, load_manifest loads fs p = Ok (Document doc)
       ↔ ∃ text, fs p = File (Ok text) ∧ loads text = Parsed doc).
Proof.
  unfold load_manifest, path_exists, read_text. split.
  - intros issue. destruct (fs p) as [|[text|e]|names]; simpl.
    + split; [intros [= <-]; by left|].
      intros [[_ ->]|(? & ? & ? & _)]; done.
    + destruct (loads text) as [doc'|err] eqn:Hloads; simpl.
      * split; [done|].
        intros [[? _]|(? & ? & [= <-] & ? & _)]; [done|congruence].
      * split.
        -- intros [= <-]. right. by exists text, err.
        -- intros [[? _]|(? & err' & [= <-] & ? & ->)]; [done|].
           by replace err' with err by congruence.
    + split; [done|]. intros [[? _]|(? & ? & ? & _)]; done.
    + split; [done|]. intros [[? _]|(? & ? & ? & _)]; done.
  - intros doc. destruct (fs p) as [|[text|e]|names]; simpl.
    + split; [done|]. by intros (? & ? & _).
    + destruct (loads text) as [doc'|err] eqn:Hloads; simpl.
      * split; [intros [= <-]; by exists text|].
        intros (? & [= <-] & ?). by replace doc with doc' by congruence.
      * split; [done|]. intros (? & [= <-] & ?). congruence.
    + split; [done|]. by intros (? & ? & _).
    + split; [done|]. by intros (? & ? & _).
Qed.

(** ** The further properties on the examples *)

Example main_one_theme :
  main repr_other json_loads_solarized one_theme THEMES_DIR
  = Ok (Outcome 0 ["All theme manifests look good."] []).
Proof. vm_compute. reflexivity. Qed.

Example main_unreadable :
  main repr_other json_loads unreadable THEMES_DIR
  = Raise (ReadError "Permission denied").
Proof. vm_compute. reflexivity. Qed.

(** A key the validator does not know, added to [solarized]. *)
Lemma unchecked_key_ignored_author :
  ("author" ∉ checked_keys)
  ∧ validate_manifest repr_other solarized_path
      (JObject (<["author" := JString "nobody"]> solarized))
    = validate_manifest repr_other solarized_path (JObject solarized).
Proof.
  assert ("author" ∉ checked_keys) as Hkey.
  { unfold checked_keys. rewrite !not_elem_of_cons.
    repeat split; try discriminate. apply not_elem_of_nil. }
  split; [exact Hkey|]. apply unchecked_key_ignored. exact Hkey.
Defined.

(** Another value for the [version] of [solarized]. *)
Lemma field_value_ignored_version :
  is_Some (solarized !! "version")
  ∧ validate_manifest repr_other solarized_path
      (JObject (<["version" := JNull]> solarized))
    = validate_manifest repr_other solarized_path (JObject solarized).
Proof.
  assert (is_Some (solarized !! "version")) as Hversion
    by (exists (JString "1.0"); reflexivity).
  split; [exact Hversion|].
  apply field_value_ignored; [|exact Hversion].
  apply list_elem_of_further, list_elem_of_here.
Defined.

(** A plain file in the place of the themes directory. *)
Lemma main_root_not_a_directory_file :
  root_is_file THEMES_DIR = File (Ok "themes")
  ∧ iter_manifest_paths root_is_file THEMES_DIR = Raise NotADirectoryError
  ∧ main repr_other json_loads root_is_file THEMES_DIR = Raise NotADirectoryError.
Proof.
  split; [reflexivity|].
  apply (main_root_not_a_directory repr_other json_loads root_is_file THEMES_DIR
           (Ok "themes")).
  reflexivity.
Defined.

(** The themes directory of the examples, listed in two orders. *)
Lemma listing_order_irrelevant_themes :
  iter_manifest_paths themes THEMES_DIR = iter_manifest_paths themes_reordered THEMES_DIR
  ∧ main repr_other json_loads themes THEMES_DIR
    = main repr_other json_loads themes_reordered THEMES_DIR.
Proof.
  apply (listing_order_irrelevant repr_other json_loads themes themes_reordered
           THEMES_DIR ["empty"; ".git"; "README.md"; "broken"; "blank"]
           ["blank"; "broken"; "README.md"; ".git"; "empty"]).
  - reflexivity.
  - reflexivity.
  - symmetry. apply (reverse_Permutation ["empty"; ".git"; "README.md"; "broken"; "blank"]).
  - intros p Hp. unfold themes_reordered. by rewrite decide_False.
Defined.

(** The one theme [solarized] passes. *)
Lemma main_exit_zero_iff_one_theme :
  one_theme THEMES_DIR = Dir ["solarized"]
  ∧ main repr_other json_loads_solarized one_theme THEMES_DIR
    = Ok (Outcome 0 ["All theme manifests look good."] []).
Proof.
  split; [reflexivity|].
  apply (main_exit_zero_iff repr_other json_loads_solarized one_theme THEMES_DIR
           ["solarized"]); [reflexivity|].
  intros d Hd _. apply list_elem_of_singleton in Hd. subst d.
  exists solarized_text, solarized. repeat split; reflexivity.
Defined.

(** A manifest that cannot be read, after one that is missing. *)
Lemma raising_manifest_ends_run_unreadable :
  iter_manifest_paths unreadable THEMES_DIR
  = Ok ([manifest_path THEMES_DIR "alpha"]
          ++ manifest_path THEMES_DIR "locked" :: [manifest_path THEMES_DIR "nested"])
  ∧ main repr_other json_loads unreadable THEMES_DIR
    = Raise (ReadError "Permission denied").
Proof.
  split; [reflexivity|].
  apply (raising_manifest_ends_run repr_other json_loads unreadable THEMES_DIR
           [manifest_path THEMES_DIR "alpha"] [manifest_path THEMES_DIR "nested"]
           (manifest_path THEMES_DIR "locked")).
  - discriminate.
  - reflexivity.
  - constructor; [|constructor]. eexists. reflexivity.
  - reflexivity.
Defined.

(** The outcome of the run on the themes directory with no theme. *)
Lemma main_outcomes_no_themes :
  main repr_other json_loads no_themes THEMES_DIR
  = Ok (Outcome 0 ["All theme manifests look good."] [])
  ∧ no_themes THEMES_DIR ≠ Missing
  ∧ scan repr_other json_loads no_themes THEMES_DIR = Ok [].
Proof.
  split; [reflexivity|].
  destruct (main_outcomes repr_other json_loads no_themes THEMES_DIR
              (Outcome 0 ["All theme manifests look good."] []) eq_refl)
    as [(_ & Hcode & _)|[(_ & Hcode & _)|(Hroot & Hscan & _)]];
    [discriminate Hcode..|].
  split; [exact Hroot|exact Hscan].
Defined.

(** A themes directory with a hidden directory and a file only. *)
Lemma main_no_theme_dirs_only_hidden :
  only_hidden THEMES_DIR = Dir [".git"; "README.md"]
  ∧ iter_manifest_paths only_hidden THEMES_DIR = Ok []
  ∧ main repr_other json_loads only_hidden THEMES_DIR
    = Ok (Outcome 0 ["All theme manifests look good."] []).
Proof.
  split; [reflexivity|].
  apply (main_no_theme_dirs repr_other json_loads only_hidden THEMES_DIR
           [".git"; "README.md"]); [reflexivity|].
  constructor; [|constructor; [|constructor]].
  - intros [Hvisible _]. discriminate Hvisible.
  - intros [_ Hdir]. discriminate Hdir.
Defined.
